(** * Text recognition worker: region resolution, transform chain, sampling,
    buffer geometry and per-frame results.

    Shallow embedding of [src/src/region_of_interest.rs], [src/src/main.rs]
    (streamed worker) and [src/src/message.rs] (batch worker).  Machine
    integers are [Z] with Rust's overflow behaviour written out: a checked
    build ([Debug]) panics on overflow, an unchecked build ([Release]) wraps.
    Division or remainder by zero panics in both. *)

From Stdlib Require Import ZArith List String Ascii Bool Lia.
Import ListNotations.
Open Scope Z_scope.

(** ** Rust execution outcomes and machine arithmetic *)

Inductive build_profile := Debug | Release.

(** A computation of Rust code: a value, an [Err] of the function's
    [Result], or a panic (overflow in a checked build, [unwrap] of an
    error, division by zero). *)
Inductive rust_result (T E : Type) :=
| ROk (v : T)
| RErr (e : E)
| RPanic.
Arguments ROk {T E} v.
Arguments RErr {T E} e.
Arguments RPanic {T E}.

Definition u32_modulus : Z := 2 ^ 32.
Definition u64_modulus : Z := 2 ^ 64.
Definition i32_min : Z := - 2 ^ 31.
Definition i32_max : Z := 2 ^ 31 - 1.

Definition in_u32 (x : Z) : Prop := 0 <= x < u32_modulus.

(** [a - b] on [u32]. *)
Definition u32_sub (m : build_profile) (a b : Z) : option Z :=
  if b <=? a then Some (a - b)
  else match m with
       | Debug => None
       | Release => Some ((a - b) mod u32_modulus)
       end.

(** Two's complement wrap of an integer into [i32]. *)
Definition wrap_i32 (x : Z) : Z := (x + 2 ^ 31) mod 2 ^ 32 - 2 ^ 31.

(** [a * b] on [i32] ([c_int]). *)
Definition i32_mul (m : build_profile) (a b : Z) : option Z :=
  if (i32_min <=? a * b) && (a * b <=? i32_max) then Some (a * b)
  else match m with
       | Debug => None
       | Release => Some (wrap_i32 (a * b))
       end.

(** [x as u64] / [x as usize] (64-bit target) for a signed [x]:
    reinterpretation of the two's complement bits. *)
Definition as_u64 (x : Z) : Z := x mod u64_modulus.

(** [x as u32] for an [i32] [x]. *)
Definition as_u32 (x : Z) : Z := x mod u32_modulus.

(** [a % b] on unsigned integers: panics when [b = 0]. *)
Definition urem (a b : Z) : option Z :=
  if b =? 0 then None else Some (a mod b).

(** ** Decimal printing (for [{:?}] of integers) *)

Fixpoint dec_aux (fuel : nat) (n : Z) (acc : string) : string :=
  match fuel with
  | O => acc
  | S f =>
      let acc' := String (ascii_of_nat (48 + Z.to_nat (n mod 10))) acc in
      if n <? 10 then acc' else dec_aux f (n / 10) acc'
  end.

Definition string_of_u32 (n : Z) : string := dec_aux 20 n EmptyString.

(** ** [region_of_interest.rs] *)

Module Region.

Record RegionOfInterest := {
  top : option Z;
  left : option Z;
  right : option Z;
  bottom : option Z;
  width : option Z;
  height : option Z
}.

Record Coordinates := {
  c_top : Z;
  c_left : Z;
  c_width : Z;
  c_height : Z
}.

Definition opt_in_u32 (o : option Z) : Prop :=
  match o with Some x => in_u32 x | None => True end.

(** Every present field is a [u32]. *)
Definition region_wf (r : RegionOfInterest) : Prop :=
  opt_in_u32 (top r) /\ opt_in_u32 (left r) /\ opt_in_u32 (right r) /\
  opt_in_u32 (bottom r) /\ opt_in_u32 (width r) /\ opt_in_u32 (height r).

Definition is_present (o : option Z) : nat :=
  match o with Some _ => 1 | None => 0 end.

(** How many of the six fields are present. *)
Definition present_count (r : RegionOfInterest) : nat :=
  (is_present (top r) + is_present (left r) + is_present (right r) +
   is_present (bottom r) + is_present (width r) + is_present (height r))%nat.

(** [#[derive(Debug)]] of [Option<u32>] and of the struct. *)
Definition debug_option (o : option Z) : string :=
  match o with
  | Some x => "Some(" ++ string_of_u32 x ++ ")"
  | None => "None"
  end.

Definition debug_region (r : RegionOfInterest) : string :=
  "RegionOfInterest { top: " ++ debug_option (top r) ++
  ", left: " ++ debug_option (left r) ++
  ", right: " ++ debug_option (right r) ++
  ", bottom: " ++ debug_option (bottom r) ++
  ", width: " ++ debug_option (width r) ++
  ", height: " ++ debug_option (height r) ++ " }".

Definition coordinates_error (r : RegionOfInterest) : string :=
  "Cannot compute coordinates from such a region of interest: " ++ debug_region r.

Definition mk_coords (t l w h : option Z) : rust_result Coordinates string :=
  match t, l, w, h with
  | Some t, Some l, Some w, Some h =>
      ROk {| c_top := t; c_left := l; c_width := w; c_height := h |}
  | _, _, _, _ => RPanic
  end.

(** [RegionOfInterest::get_coordinates]: the match arms in source order. *)
Definition get_coordinates (m : build_profile) (r : RegionOfInterest)
  : rust_result Coordinates string :=
  match top r, left r, right r, bottom r, width r, height r with
  | Some t, Some l, Some rt, Some b, None, None =>
      mk_coords (Some t) (Some l) (u32_sub m rt l) (u32_sub m b t)
  | Some t, Some l, None, None, Some w, Some h =>
      mk_coords (Some t) (Some l) (Some w) (Some h)
  | Some t, Some l, None, Some b, Some w, None =>
      mk_coords (Some t) (Some l) (Some w) (u32_sub m b t)
  | Some t, Some l, Some rt, None, None, Some h =>
      mk_coords (Some t) (Some l) (u32_sub m rt l) (Some h)
  | None, Some l, None, Some b, Some w, Some h =>
      mk_coords (u32_sub m b h) (Some l) (Some w) (Some h)
  | Some t, None, Some rt, None, Some w, Some h =>
      mk_coords (Some t) (u32_sub m rt w) (Some w) (Some h)
  | None, None, Some rt, Some b, Some w, Some h =>
      mk_coords (u32_sub m b h) (u32_sub m rt w) (Some w) (Some h)
  | _, _, _, _, _, _ => RErr (coordinates_error r)
  end.

(** Reference resolver following the seven combinations of the spec
    (section 4.1), over exact integers. *)
Definition spec_resolve (r : RegionOfInterest) : option Coordinates :=
  let mk t l w h := Some {| c_top := t; c_left := l; c_width := w; c_height := h |} in
  match top r, left r, right r, bottom r, width r, height r with
  | Some t, Some l, Some rt, Some b, None, None => mk t l (rt - l) (b - t)
  | Some t, Some l, None, None, Some w, Some h => mk t l w h
  | Some t, Some l, None, Some b, Some w, None => mk t l w (b - t)
  | Some t, Some l, Some rt, None, None, Some h => mk t l (rt - l) h
  | None, Some l, None, Some b, Some w, Some h => mk (b - h) l w h
  | Some t, None, Some rt, None, Some w, Some h => mk t (rt - w) w h
  | None, None, Some rt, Some b, Some w, Some h => mk (b - h) (rt - w) w h
  | _, _, _, _, _, _ => None
  end.

Definition coords_nonneg (c : Coordinates) : Prop :=
  0 <= c_top c /\ 0 <= c_left c /\ 0 <= c_width c /\ 0 <= c_height c.

Definition coords_nonneg_b (c : Coordinates) : bool :=
  (0 <=? c_top c) && (0 <=? c_left c) && (0 <=? c_width c) && (0 <=? c_height c).

Definition wrap_coords (c : Coordinates) : Coordinates :=
  {| c_top := c_top c mod u32_modulus; c_left := c_left c mod u32_modulus;
     c_width := c_width c mod u32_modulus; c_height := c_height c mod u32_modulus |}.

(** The fields of the rectangle [c] selected by a mask, in the order
    top, left, right, bottom, width, height. *)
Definition describe (c : Coordinates) (mask : bool * bool * bool * bool * bool * bool)
  : RegionOfInterest :=
  let '(mt, ml, mr, mb, mw, mh) := mask in
  {| top := if mt then Some (c_top c) else None;
     left := if ml then Some (c_left c) else None;
     right := if mr then Some (c_left c + c_width c) else None;
     bottom := if mb then Some (c_top c + c_height c) else None;
     width := if mw then Some (c_width c) else None;
     height := if mh then Some (c_height c) else None |}.

(** The seven field sets [get_coordinates] accepts, as masks. *)
Definition accepted_masks : list (bool * bool * bool * bool * bool * bool) :=
  [ (true, true, true, true, false, false);
    (true, true, false, false, true, true);
    (true, true, false, true, true, false);
    (true, true, true, false, false, true);
    (false, true, false, true, true, true);
    (true, false, true, false, true, true);
    (false, false, true, true, true, true) ].

End Region.

(** ** External collaborator: FFmpeg's pixel format descriptors

    [av_get_bits_per_pixel] is FFmpeg's (libavutil/pixdesc.c), transcribed
    here over the descriptor fields it reads. *)

Record AVPixFmtDescriptor := {
  nb_components : Z;
  log2_chroma_w : Z;
  log2_chroma_h : Z;
  comp_depth : list Z
}.

Definition av_get_bits_per_pixel (d : AVPixFmtDescriptor) : Z :=
  let log2_pixels := log2_chroma_w d + log2_chroma_h d in
  let fix go (c : Z) (ds : list Z) (bits : Z) : Z :=
    match ds with
    | [] => bits
    | dp :: rest =>
        let s := if (c =? 1) || (c =? 2) then 0 else log2_pixels in
        go (c + 1) rest (bits + Z.shiftl dp s)
    end in
  Z.shiftr (go 0 (firstn (Z.to_nat (nb_components d)) (comp_depth d)) 0) log2_pixels.

(** [AV_PIX_FMT_RGB24]: packed RGB 8:8:8, 24 bits per pixel. *)
Definition rgb24_desc : AVPixFmtDescriptor :=
  {| nb_components := 3; log2_chroma_w := 0; log2_chroma_h := 0;
     comp_depth := [8; 8; 8] |}.

(** The arguments handed to [tesseract::ocr_from_frame]; the pixel data
    is the [Vec] built over [data[0]] with length [oc_len]. *)
Record OcrCall := {
  oc_len : Z;
  oc_width : Z;
  oc_height : Z;
  oc_bytes_per_pixel : Z;
  oc_linesize : Z;
  oc_language : string
}.

(** ** [main.rs]: the streamed worker *)

Module Streamed.

Inductive AVMediaType :=
| AVMEDIA_TYPE_UNKNOWN
| AVMEDIA_TYPE_VIDEO
| AVMEDIA_TYPE_AUDIO
| AVMEDIA_TYPE_DATA
| AVMEDIA_TYPE_SUBTITLE
| AVMEDIA_TYPE_ATTACHMENT.

Definition is_video (t : AVMediaType) : bool :=
  match t with AVMEDIA_TYPE_VIDEO => true | _ => false end.

Record Scaling := { sc_width : option Z; sc_height : option Z }.
Record VideoFormat := { pixel_formats : string }.

Inductive VideoFilter :=
| Crop (r : Region.RegionOfInterest)
| Resize (s : Scaling)
| Format (f : VideoFormat).

(** [StreamDescriptor::new_video(index, filters)]. *)
Record StreamDescriptor := { sd_index : Z; sd_filters : list VideoFilter }.

Inductive MessageError :=
| RuntimeError (msg : string)
| ProcessingError (msg : string).

Record WorkerParameters := {
  source_path : string;
  destination_path : string;
  language : option string;
  region_of_interest : option Region.RegionOfInterest;
  sample_rate : option Z;
  width : option Z;
  height : option Z
}.

(** [TextRecognitionEvent]; the response sender is an opaque channel id. *)
Record TextRecognitionEvent := {
  ev_language : string;
  response_sender : option nat;
  frame_count : Z;
  ev_sample_rate : option Z
}.

Definition default_event : TextRecognitionEvent :=
  {| ev_language := EmptyString; response_sender := None; frame_count := 0;
     ev_sample_rate := None |}.

(** The format context, as seen through [get_nb_streams] and
    [get_stream_type]. *)
Definition FormatContext := list AVMediaType.

Definition rgb24_format : VideoFilter := Format {| pixel_formats := "rgb24" |}.

(** Lines 88-104: the filter list pushed for the video stream. *)
Definition video_filters (p : WorkerParameters) : list VideoFilter :=
  let scaling :=
    match width p, height p with
    | None, None => None
    | w, h => Some {| sc_width := w; sc_height := h |}
    end in
  let filters := match region_of_interest p with
                 | Some r => [Crop r]
                 | None => []
                 end in
  let filters := match scaling with
                 | Some s => filters ++ [Resize s]
                 | None => filters
                 end in
  filters ++ [rgb24_format].

(** The [for stream_index in 0..get_nb_streams()] loop. *)
Fixpoint find_video_stream (p : WorkerParameters) (stream_index : Z)
    (streams : list AVMediaType) : rust_result (list StreamDescriptor) MessageError :=
  match streams with
  | [] => RErr (RuntimeError "Missing video stream in the source")
  | t :: rest =>
      if is_video t
      then ROk [ {| sd_index := stream_index; sd_filters := video_filters p |} ]
      else find_video_stream p (stream_index + 1) rest
  end.

Definition init_process (ev : TextRecognitionEvent) (p : WorkerParameters)
    (ctx : FormatContext) (sender : nat)
    : TextRecognitionEvent * rust_result (list StreamDescriptor) MessageError :=
  let ev' := {| ev_language := match language p with Some l => l | None => "eng" end;
                response_sender := Some sender;
                frame_count := frame_count ev;
                ev_sample_rate := sample_rate p |} in
  (ev', find_video_stream p 0 ctx).

(** A decoded frame ([AVFrame]) as [process_frame] reads it. *)
Record Frame := {
  f_format : Z;
  f_width : Z;
  f_height : Z;
  f_linesize : Z;
  f_pts : Z
}.

Record RecognisedText := { pts : Z; text : string }.

Inductive ProcessResult :=
| PR_empty
| PR_json (r : RecognisedText)
| PR_end_of_process.

Inductive SampleDecision := Keep | Skip.

(** [AtomicU32::fetch_add(1)]: wraps, never panics. *)
Definition fetch_add_u32 (c : Z) : Z := (c + 1) mod u32_modulus.

(** Lines 123-127; [None] is the panic of [% 0]. *)
Definition sample (sr : option Z) (fc : Z) : option SampleDecision :=
  match sr with
  | None => Some Keep
  | Some s =>
      match urem fc s with
      | None => None
      | Some r => Some (if negb (r =? 0) then Skip else Keep)
      end
  end.

(** Lines 130-141: the buffer adapter; [None] is an [i32] overflow panic. *)
Definition frame_buffer (m : build_profile) (desc : AVPixFmtDescriptor)
    (f : Frame) (lang : string) : option OcrCall :=
  let bytes_per_pixel := Z.quot (av_get_bits_per_pixel desc) 8 in
  match i32_mul m (f_linesize f) (f_height f) with
  | None => None
  | Some prod =>
      Some {| oc_len := as_u64 prod; oc_width := f_width f; oc_height := f_height f;
              oc_bytes_per_pixel := bytes_per_pixel; oc_linesize := f_linesize f;
              oc_language := lang |}
  end.

Section ProcessFrame.

(** [av_pix_fmt_desc_get] and [tesseract::ocr_from_frame] (whose error is
    [unwrap]ped). *)
Variable av_pix_fmt_desc_get : Z -> AVPixFmtDescriptor.
Variable ocr_from_frame : OcrCall -> option string.

Definition process_frame (m : build_profile) (ev : TextRecognitionEvent) (f : Frame)
    : TextRecognitionEvent * rust_result ProcessResult MessageError :=
  let fc := frame_count ev in
  let ev' := {| ev_language := ev_language ev; response_sender := response_sender ev;
                frame_count := fetch_add_u32 fc; ev_sample_rate := ev_sample_rate ev |} in
  match sample (ev_sample_rate ev) fc with
  | None => (ev', RPanic)
  | Some Skip => (ev', ROk PR_empty)
  | Some Keep =>
      match frame_buffer m (av_pix_fmt_desc_get (f_format f)) f (ev_language ev) with
      | None => (ev', RPanic)
      | Some call =>
          match ocr_from_frame call with
          | None => (ev', RPanic)
          | Some txt => (ev', ROk (PR_json {| pts := as_u64 (f_pts f); text := txt |}))
          end
      end
  end.

End ProcessFrame.

(** The sampling decisions and final counter of [n] successive calls. *)
Fixpoint run_sampler (n : nat) (sr : option Z) (fc : Z) : list (option SampleDecision) * Z :=
  match n with
  | O => ([], fc)
  | S k => let '(ds, fc') := run_sampler k sr (fetch_add_u32 fc) in
           (sample sr fc :: ds, fc')
  end.



Definition is_crop (v : VideoFilter) : bool :=
  match v with Crop _ => true | _ => false end.

Definition is_format (v : VideoFilter) : bool :=
  match v with Format _ => true | _ => false end.

End Streamed.

(** ** [message.rs]: the batch worker *)

Module Batch.

(** A frame out of the filter graph, as [apply_ocr] reads it. *)
Record VideoFrame := {
  vf_width : Z;
  vf_height : Z;
  vf_linesize : Z
}.

Record FrameAnalysis := {
  coordinates : Z * Z * Z * Z;
  confidence : string;
  frame : Z;
  text : string
}.

(** A packet read by [av_read_frame]: its stream index, the decoder's
    error if decoding fails, and the frames [graph.process] returns
    ([None] when it returns an error, which the loop ignores). *)
Record Packet := {
  stream_index : Z;
  decode_error : option string;
  filtered : option (list VideoFrame)
}.

(** [frame_count += 1] on [usize]. *)
Definition usize_inc (m : build_profile) (c : Z) : option Z :=
  if c + 1 <? u64_modulus then Some (c + 1)
  else match m with Debug => None | Release => Some 0 end.

(** [job.get_parameter::<i64>(SAMPLE_RATE_PARAMETER).unwrap_or(1)] then
    [sample_rate as usize]; [param] is [None] when the parameter is absent
    or not an integer. *)
Definition process_sample_rate (param : option Z) : Z :=
  as_u64 (match param with Some v => v | None => 1 end).

Section ApplyOcr.

Variable ocr_from_frame : OcrCall -> string.
Variable m : build_profile.
Variable sample_rate : Z.
Variable coords_param : option (Z * Z * Z * Z).
Variable language : string.

Definition frame_state : Type := Z * list FrameAnalysis.

(** The body of [for video_frame in &video_frames] (lines 170-234);
    [None] is a panic. *)
Definition frame_step (st : frame_state) (vf : VideoFrame) : option frame_state :=
  let '(frame_count, text_analysis) := st in
  match urem frame_count sample_rate with
  | None => None
  | Some r =>
      if negb (r =? 0) then
        option_map (fun fc => (fc, text_analysis)) (usize_inc m frame_count)
      else
        match i32_mul m (vf_linesize vf) (vf_height vf) with
        | None => None
        | Some buffer_size =>
            let bytes_per_pixel := Z.quot (av_get_bits_per_pixel rgb24_desc) 8 in
            let result := ocr_from_frame
              {| oc_len := as_u64 buffer_size; oc_width := vf_width vf;
                 oc_height := vf_height vf; oc_bytes_per_pixel := bytes_per_pixel;
                 oc_linesize := vf_linesize vf; oc_language := language |} in
            let coords := match coords_param with
                          | Some c => c
                          | None => (0, as_u32 (vf_height vf), 0, as_u32 (vf_width vf))
                          end in
            let text_analysis' := text_analysis ++
              [ {| coordinates := coords; confidence := "NA";
                   frame := frame_count; text := result |} ] in
            option_map (fun fc => (fc, text_analysis')) (usize_inc m frame_count)
        end
  end.

Fixpoint frames_loop (st : frame_state) (vfs : list VideoFrame) : option frame_state :=
  match vfs with
  | [] => Some st
  | vf :: rest =>
      match frame_step st vf with
      | None => None
      | Some st' => frames_loop st' rest
      end
  end.

(** The packet loop (lines 151-238): [RErr] is the decoder error
    propagated by [?]. *)
Fixpoint packet_loop (st : frame_state) (pkts : list Packet)
    : rust_result frame_state string :=
  match pkts with
  | [] => ROk st
  | p :: rest =>
      if negb (stream_index p =? 0) then packet_loop st rest
      else match decode_error p with
           | Some e => RErr e
           | None =>
               match filtered p with
               | None => packet_loop st rest
               | Some vfs =>
                   match frames_loop st vfs with
                   | None => RPanic
                   | Some st' => packet_loop st' rest
                   end
               end
           end
  end.

(** The report [apply_ocr] serializes: the accumulated [text_analysis]. *)
Definition apply_ocr_report (pkts : list Packet) : rust_result (list FrameAnalysis) string :=
  match packet_loop (0, []) pkts with
  | ROk (_, text_analysis) => ROk text_analysis
  | RErr e => RErr e
  | RPanic => RPanic
  end.

End ApplyOcr.

(** The frames reaching the inner loop from packets of stream 0. *)
Fixpoint collected_frames (pkts : list Packet) : list VideoFrame :=
  match pkts with
  | [] => []
  | p :: rest =>
      if negb (stream_index p =? 0) then collected_frames rest
      else match filtered p with
           | None => collected_frames rest
           | Some vfs => vfs ++ collected_frames rest
           end
  end.

Definition decodes_ok (pkts : list Packet) : Prop :=
  forall p, In p pkts -> stream_index p = 0 -> decode_error p = None.

Definition frame_wf (vf : VideoFrame) : Prop :=
  0 <= vf_width vf <= i32_max /\ 0 <= vf_height vf <= i32_max /\
  0 <= vf_linesize vf /\ vf_linesize vf * vf_height vf <= i32_max.

(** The entry the loop records for kept frame number [i]. *)
Definition full_frame_entry (ocr : OcrCall -> string) (language : string)
    (i : Z) (vf : VideoFrame) : FrameAnalysis :=
  {| coordinates := (0, vf_height vf, 0, vf_width vf); confidence := "NA"; frame := i;
     text := ocr {| oc_len := vf_linesize vf * vf_height vf; oc_width := vf_width vf;
                    oc_height := vf_height vf; oc_bytes_per_pixel := 3;
                    oc_linesize := vf_linesize vf; oc_language := language |} |}.

(** The entries the loop records, from frame number [fc] on, when no
    region is given: one per frame whose number is a multiple of [sr]. *)
Fixpoint kept_entries (ocr : OcrCall -> string) (language : string) (sr fc : Z)
    (vfs : list VideoFrame) : list FrameAnalysis :=
  match vfs with
  | [] => []
  | vf :: rest =>
      (if fc mod sr =? 0 then [full_frame_entry ocr language fc vf] else []) ++
      kept_entries ocr language sr (fc + 1) rest
  end.

(** An entry with its [coordinates] field replaced. *)
Definition set_coordinates (c : Z * Z * Z * Z) (e : FrameAnalysis) : FrameAnalysis :=
  {| coordinates := c; confidence := confidence e; frame := frame e; text := text e |}.

End Batch.

(** ** Sample inputs *)

Module Samples.

Definition roi0 : Region.RegionOfInterest :=
  {| Region.top := Some 10; Region.left := Some 20; Region.right := Some 220;
     Region.bottom := Some 110; Region.width := None; Region.height := None |}.

(** A region with top, right, bottom and height: none of the seven
    combinations [get_coordinates] resolves. *)
Definition roi_unresolvable : Region.RegionOfInterest :=
  {| Region.top := Some 10; Region.left := None; Region.right := Some 220;
     Region.bottom := Some 110; Region.width := None; Region.height := Some 100 |}.

Definition params_with (roi : option Region.RegionOfInterest) (sr w h : option Z)
  : Streamed.WorkerParameters :=
  {| Streamed.source_path := "input.mp4"; Streamed.destination_path := "ocr.json";
     Streamed.language := None; Streamed.region_of_interest := roi;
     Streamed.sample_rate := sr; Streamed.width := w; Streamed.height := h |}.

Definition ctx0 : Streamed.FormatContext :=
  [Streamed.AVMEDIA_TYPE_AUDIO; Streamed.AVMEDIA_TYPE_VIDEO].

Definition frame0 (pts : Z) : Streamed.Frame :=
  {| Streamed.f_format := 2; Streamed.f_width := 64; Streamed.f_height := 100;
     Streamed.f_linesize := 192; Streamed.f_pts := pts |}.

Definition desc0 (_ : Z) : AVPixFmtDescriptor := rgb24_desc.
Definition ocr0 (_ : OcrCall) : option string := Some "TEXT"%string.

(** [AV_NOPTS_VALUE], FFmpeg's unset timestamp: [INT64_MIN]. *)
Definition AV_NOPTS_VALUE : Z := - 2 ^ 63.

Definition vf0 : Batch.VideoFrame :=
  {| Batch.vf_width := 64; Batch.vf_height := 100; Batch.vf_linesize := 192 |}.

Definition video_packet (vfs : option (list Batch.VideoFrame)) : Batch.Packet :=
  {| Batch.stream_index := 0; Batch.decode_error := None; Batch.filtered := vfs |}.

(** An audio packet, a packet the graph rejects, then ten video frames
    in packets of one, two and three frames. *)
Definition pkts0 : list Batch.Packet :=
  [ {| Batch.stream_index := 1; Batch.decode_error := Some "audio"%string;
       Batch.filtered := None |};
    video_packet None;
    video_packet (Some [vf0]);
    video_packet (Some [vf0; vf0]);
    video_packet (Some [vf0; vf0; vf0]);
    video_packet (Some [vf0; vf0; vf0; vf0]) ].

Definition ocr_text (_ : OcrCall) : string := "TEXT"%string.

End Samples.

(** * Properties *)

Module RegionProofs.
Import Region.

Lemma u32_sub_no_underflow : forall m a b, b <= a -> u32_sub m a b = Some (a - b).
Proof. intros m a b H. unfold u32_sub. now rewrite (proj2 (Z.leb_le b a) H). Qed.

Lemma u32_sub_underflow_debug : forall a b, a < b -> u32_sub Debug a b = None.
Proof. intros a b H. unfold u32_sub. now rewrite (proj2 (Z.leb_gt b a) H). Qed.

Lemma u32_sub_release : forall a b, in_u32 a -> in_u32 b ->
  u32_sub Release a b = Some ((a - b) mod u32_modulus).
Proof.
  intros a b Ha Hb. unfold u32_sub, in_u32 in *.
  destruct (Z.leb_spec b a); [|reflexivity].
  f_equal. rewrite Z.mod_small; lia.
Qed.

Lemma mod_u32_small : forall x, in_u32 x -> x mod u32_modulus = x.
Proof. intros x Hx. unfold in_u32 in Hx. apply Z.mod_small; lia. Qed.

Example get_coordinates_tlrb :
  get_coordinates Debug {| top := Some 0; left := Some 0; right := Some 200;
                           bottom := Some 100; width := None; height := None |}
  = ROk {| c_top := 0; c_left := 0; c_width := 200; c_height := 100 |}.
Proof. reflexivity. Qed.

Example get_coordinates_trbh_message :
  get_coordinates Release {| top := Some 1; left := None; right := Some 200;
                             bottom := Some 100; width := None; height := Some 7 |}
  = RErr ("Cannot compute coordinates from such a region of interest: " ++
          "RegionOfInterest { top: Some(1), left: None, right: Some(200), " ++
          "bottom: Some(100), width: None, height: Some(7) }")%string.
Proof. reflexivity. Qed.

(** C1: [get_coordinates] fails with an error whose text prints the
    region's fields exactly when the set of present fields is not one of
    the seven combinations of the spec (in particular whenever fewer or
    more than four fields are present), and on the seven combinations it
    returns the rectangle of the spec's formulas whenever these formulas
    stay non-negative (the underflowing case is the subject of C2). *)
Theorem get_coordinates_combinations : forall m r,
  (present_count r <> 4%nat -> get_coordinates m r = RErr (coordinates_error r)) /\
  match spec_resolve r with
  | None => get_coordinates m r = RErr (coordinates_error r)
  | Some c => coords_nonneg c -> get_coordinates m r = ROk c
  end.
Proof.
  intros m [[t|] [l|] [rt|] [b|] [w|] [h|]];
    cbn [present_count is_present top left right bottom width height];
    (split; [intro Hn; (try (exfalso; apply Hn; reflexivity)); reflexivity |]);
    cbn [spec_resolve get_coordinates top left right bottom width height];
    try reflexivity;
    unfold coords_nonneg; cbn [c_top c_left c_width c_height]; intros Hc;
    rewrite ?u32_sub_no_underflow by lia; reflexivity.
Qed.

Lemma get_coordinates_combinations_witness :
  coords_nonneg {| c_top := 0; c_left := 10; c_width := 190; c_height := 100 |} /\
  get_coordinates Debug {| top := Some 0; left := Some 10; right := Some 200;
                           bottom := Some 100; width := None; height := None |}
  = ROk {| c_top := 0; c_left := 10; c_width := 190; c_height := 100 |}.
Proof.
  assert (Hn : coords_nonneg {| c_top := 0; c_left := 10; c_width := 190; c_height := 100 |})
    by (unfold coords_nonneg; simpl; lia).
  split; [exact Hn |].
  exact (proj2 (get_coordinates_combinations Debug
    {| top := Some 0; left := Some 10; right := Some 200;
       bottom := Some 100; width := None; height := None |}) Hn).
Defined.

(** C2 (counterexample): with [right < left] in the combination
    top, left, right, bottom, [get_coordinates] returns no error in either
    build: it panics in a checked build and wraps in an unchecked one. *)
Lemma get_coordinates_right_lt_left_no_error :
  ~ (exists m e, get_coordinates m {| top := Some 0; left := Some 10; right := Some 5;
                                      bottom := Some 100; width := None; height := None |}
                 = RErr e).
Proof. intros [[|] [e He]]; discriminate He. Qed.

Example get_coordinates_right_lt_left_release :
  get_coordinates Release {| top := Some 0; left := Some 10; right := Some 5;
                             bottom := Some 100; width := None; height := None |}
  = ROk {| c_top := 0; c_left := 10; c_width := 4294967291; c_height := 100 |}.
Proof. reflexivity. Qed.

(** C2 (amended): on the seven valid combinations [get_coordinates] never
    returns an error.  When a derived extent would be negative, the
    unsigned subtraction underflows: a checked build panics, an unchecked
    build returns the formulas' values taken modulo 2^32. *)
Theorem get_coordinates_underflow : forall r c,
  region_wf r -> spec_resolve r = Some c ->
  get_coordinates Release r = ROk (wrap_coords c) /\
  get_coordinates Debug r = (if coords_nonneg_b c then ROk c else RPanic) /\
  (forall m e, get_coordinates m r <> RErr e).
Proof.
  intros [[t|] [l|] [rt|] [b|] [w|] [h|]] c Hwf Hs;
    cbn [spec_resolve top left right bottom width height] in Hs; try discriminate Hs;
    injection Hs as <-;
    unfold region_wf, opt_in_u32 in Hwf; cbn [top left right bottom width height] in Hwf;
    repeat match type of Hwf with
           | _ /\ _ => let H := fresh "Hb" in destruct Hwf as [H Hwf]
           end;
    cbn [get_coordinates top left right bottom width height];
    rewrite ?u32_sub_release by assumption;
    unfold wrap_coords, coords_nonneg_b; cbn [c_top c_left c_width c_height];
    rewrite ?(mod_u32_small t), ?(mod_u32_small l), ?(mod_u32_small w),
            ?(mod_u32_small h) by assumption;
    (split; [reflexivity | split]);
    unfold in_u32 in *;
    try (intros m0 e; destruct m0; unfold u32_sub;
         repeat (destruct (_ <=? _)); discriminate);
    unfold u32_sub;
    repeat match goal with
           | |- context [?a <=? ?b] => destruct (Z.leb_spec a b)
           end;
    cbn [mk_coords andb]; try reflexivity;
    exfalso; lia.
Qed.

Lemma get_coordinates_underflow_witness :
  region_wf {| top := Some 0; left := Some 10; right := Some 5;
               bottom := Some 100; width := None; height := None |} /\
  get_coordinates Debug {| top := Some 0; left := Some 10; right := Some 5;
                           bottom := Some 100; width := None; height := None |} = RPanic.
Proof.
  assert (Hwf : region_wf {| top := Some 0; left := Some 10; right := Some 5;
                             bottom := Some 100; width := None; height := None |})
    by (unfold region_wf, opt_in_u32, in_u32, u32_modulus; simpl; lia).
  split; [exact Hwf |].
  exact (proj1 (proj2 (get_coordinates_underflow _
    {| c_top := 0; c_left := 10; c_width := -5; c_height := 100 |} Hwf eq_refl))).
Defined.

End RegionProofs.

Module StreamedProofs.
Import Streamed.



Lemma process_frame_empty : forall g o m ev f,
  snd (process_frame g o m ev f) = ROk PR_empty <->
  sample (ev_sample_rate ev) (frame_count ev) = Some Skip.
Proof.
  intros g o m ev f. unfold process_frame.
  destruct (sample _ _) as [[|]|]; cbn [snd]; split; intro H; try discriminate H;
    try reflexivity.
  destruct (frame_buffer _ _ _ _); [| discriminate H].
  destruct (o _); discriminate H.
Qed.

Lemma run_sampler_shift : forall n sr fc s,
  run_sampler n sr ((fc + Z.of_nat s) mod u32_modulus) =
  (map (fun i => sample sr ((fc + Z.of_nat i) mod u32_modulus)) (seq s n),
   (fc + Z.of_nat (s + n)) mod u32_modulus).
Proof.
  induction n as [|n IH]; intros sr fc s; cbn [run_sampler seq map].
  - now rewrite Nat.add_0_r.
  - unfold fetch_add_u32.
    rewrite Z.add_mod_idemp_l by (unfold u32_modulus; lia).
    replace (fc + Z.of_nat s + 1) with (fc + Z.of_nat (S s)) by lia.
    rewrite IH. f_equal. f_equal. f_equal. f_equal. lia.
Qed.

Lemma run_sampler_from_zero : forall n sr,
  run_sampler n sr 0 =
  (map (fun i => sample sr (Z.of_nat i mod u32_modulus)) (seq 0 n),
   Z.of_nat n mod u32_modulus).
Proof.
  intros n sr. pose proof (run_sampler_shift n sr 0 0) as H.
  cbn [Z.of_nat Z.add Nat.add] in H. rewrite Z.mod_0_l in H by (unfold u32_modulus; lia).
  exact H.
Qed.

(** C5: the buffer adapter of [process_frame] hands the OCR call a buffer
    of length [linesize * height] and [bytes_per_pixel] equal to the pixel
    format's bits per pixel divided by 8, for every frame whose plane size
    fits in a [c_int] (FFmpeg's [av_image_check_size] bounds every frame it
    allocates so); the batch worker computes [bytes_per_pixel] from the
    packed RGB format, which gives 3, and a 192-byte stride over 100 rows
    gives 19200 bytes. *)
Theorem buffer_adapter_geometry : forall m desc f lang,
  0 <= f_linesize f -> 0 <= f_height f -> f_linesize f * f_height f <= i32_max ->
  frame_buffer m desc f lang =
    Some {| oc_len := f_linesize f * f_height f; oc_width := f_width f;
            oc_height := f_height f;
            oc_bytes_per_pixel := Z.quot (av_get_bits_per_pixel desc) 8;
            oc_linesize := f_linesize f; oc_language := lang |} /\
  Z.quot (av_get_bits_per_pixel rgb24_desc) 8 = 3 /\
  (forall m' f', f_linesize f' = 192 -> f_height f' = 100 ->
     option_map oc_len (frame_buffer m' desc f' lang) = Some 19200).
Proof.
  intros m desc f lang H1 H2 H3.
  assert (Hmul : forall m0 a b, 0 <= a -> 0 <= b -> a * b <= i32_max ->
                 i32_mul m0 a b = Some (a * b)).
  { intros m0 a b Ha Hb Hab. unfold i32_mul.
    rewrite (proj2 (Z.leb_le i32_min (a * b))) by (unfold i32_min; nia).
    now rewrite (proj2 (Z.leb_le _ i32_max) Hab). }
  split; [| split].
  - unfold frame_buffer. rewrite Hmul by assumption.
    unfold as_u64, u64_modulus, i32_max in *. rewrite Z.mod_small by nia.
    reflexivity.
  - reflexivity.
  - intros m' f' Hl Hh. unfold frame_buffer.
    rewrite Hmul by (rewrite ?Hl, ?Hh; unfold i32_max; lia).
    rewrite Hl, Hh. reflexivity.
Qed.

Lemma buffer_adapter_geometry_witness :
  frame_buffer Debug rgb24_desc
    {| f_format := 2; f_width := 64; f_height := 100; f_linesize := 192; f_pts := 0 |} "eng"
  = Some {| oc_len := 19200; oc_width := 64; oc_height := 100; oc_bytes_per_pixel := 3;
            oc_linesize := 192; oc_language := "eng" |}.
Proof.
  destruct (buffer_adapter_geometry Debug rgb24_desc
    {| f_format := 2; f_width := 64; f_height := 100; f_linesize := 192; f_pts := 0 |} "eng")
    as [H _]; cbn [f_linesize f_height]; unfold i32_max; try lia.
  exact H.
Defined.

Lemma find_video_stream_spec : forall p ctx i,
  (existsb is_video ctx = false ->
   find_video_stream p i ctx = RErr (RuntimeError "Missing video stream in the source")) /\
  (existsb is_video ctx = true ->
   exists j, find_video_stream p i ctx = ROk [ {| sd_index := j; sd_filters := video_filters p |} ]).
Proof.
  intros p ctx. induction ctx as [|t rest IH]; intro i; cbn [find_video_stream existsb].
  - split; [reflexivity | discriminate].
  - destruct (is_video t); cbn [orb].
    + split; [discriminate | intros _; eauto].
    + exact (IH (i + 1)).
Qed.

(** C6 (corrected): the stream descriptor built by [init_process]
    carries the filter chain of [video_filters]: it ends with a format
    conversion to [rgb24] and has no other format stage; it starts with a
    crop stage carrying the job's region as given (nothing resolves or
    checks it) exactly when a region of interest is given, and has no crop
    stage otherwise; it has a scale stage exactly when a target width or
    height is given, carrying both, placed right before the format stage
    and after the crop stages only. *)
Theorem transform_chain_order : forall ev p ctx sender sds,
  snd (init_process ev p ctx sender) = ROk sds ->
  (exists idx, sds = [ {| sd_index := idx; sd_filters := video_filters p |} ]) /\
  let fs := video_filters p in
  (exists pre, fs = pre ++ [Format {| pixel_formats := "rgb24" |}] /\
               forallb (fun v => negb (is_format v)) pre = true) /\
  (forall r, hd_error fs = Some (Crop r) <-> region_of_interest p = Some r) /\
  ((exists r, In (Crop r) fs) <-> region_of_interest p <> None) /\
  ((exists s, In (Resize s) fs) <-> (width p <> None \/ height p <> None)) /\
  (forall s, In (Resize s) fs ->
     s = {| sc_width := width p; sc_height := height p |} /\
     exists pre, fs = pre ++ [Resize s; Format {| pixel_formats := "rgb24" |}] /\
                 forallb is_crop pre = true).
Proof.
  intros ev p ctx sender sds Hok. split.
  - unfold init_process in Hok. cbn [snd] in Hok.
    destruct (existsb is_video ctx) eqn:Hv.
    + destruct (proj2 (find_video_stream_spec p ctx 0) Hv) as [j Hj].
      rewrite Hj in Hok. injection Hok as <-. eauto.
    + rewrite (proj1 (find_video_stream_spec p ctx 0) Hv) in Hok. discriminate Hok.
  - unfold video_filters, rgb24_format.
    destruct (region_of_interest p) as [r|], (width p) as [w|], (height p) as [h|];
      cbn [app hd_error In];
      refine (conj _ (conj _ (conj _ (conj _ _)))).
    all: try (first [ solve [exists []; split; reflexivity]
                    | solve [exists [Crop r]; split; reflexivity]
                    | solve [eexists [Resize _]; split; reflexivity]
                    | solve [eexists [Crop r; Resize _]; split; reflexivity] ]).
    all: try (intro r0; split; intro H; congruence).
    all: try (split; [intros [r0 Hr0]; intuition congruence
                     | intro H; first [ solve [eexists; left; reflexivity]
                                      | exfalso; apply H; reflexivity ] ]).
    all: try (split; [intros [s0 Hs]; first [ solve [left; discriminate]
                                            | solve [right; discriminate]
                                            | intuition congruence ]
                     | intro H; first [ solve [eexists; left; reflexivity]
                                      | solve [eexists; right; left; reflexivity]
                                      | destruct H as [H|H]; exfalso; apply H; reflexivity ] ]).
    all: intros s0 Hs;
         repeat match type of Hs with _ \/ _ => destruct Hs as [Hs|Hs] end;
         try contradiction; try congruence;
         injection Hs as <-; refine (conj eq_refl _);
         first [ solve [exists []; split; reflexivity]
               | solve [exists [Crop r]; split; reflexivity] ].
Qed.

Lemma transform_chain_order_witness :
  hd_error (video_filters (Samples.params_with (Some Samples.roi0) None (Some 640) None))
  = Some (Crop Samples.roi0).
Proof.
  destruct (transform_chain_order default_event
              (Samples.params_with (Some Samples.roi0) None (Some 640) None)
              Samples.ctx0 0%nat _ eq_refl) as [_ [_ [Hc _]]].
  apply Hc. reflexivity.
Defined.

(** C6 (counterexample): the crop stage is not built from a resolved
    region.  A job whose region has top, right, bottom and height, which
    [get_coordinates] rejects, gets a descriptor whose chain starts with a
    crop stage carrying that region unchanged. *)
Lemma crop_stage_unresolved_region :
  Region.get_coordinates Debug Samples.roi_unresolvable =
    RErr (Region.coordinates_error Samples.roi_unresolvable) /\
  snd (init_process default_event
         (Samples.params_with (Some Samples.roi_unresolvable) None None None)
         Samples.ctx0 0%nat) =
    ROk [ {| sd_index := 1; sd_filters := [Crop Samples.roi_unresolvable; rgb24_format] |} ].
Proof. split; reflexivity. Qed.

(** C9: [init_process] fails exactly when the source has no video stream,
    with the runtime error "Missing video stream in the source"; it
    succeeds otherwise, and it leaves the frame counter untouched (no frame
    is processed during construction). *)
Theorem init_process_missing_video : forall ev p ctx sender,
  (snd (init_process ev p ctx sender) =
     RErr (RuntimeError "Missing video stream in the source") <->
   existsb is_video ctx = false) /\
  (existsb is_video ctx = true -> exists sds, snd (init_process ev p ctx sender) = ROk sds) /\
  frame_count (fst (init_process ev p ctx sender)) = frame_count ev.
Proof.
  intros ev p ctx sender. unfold init_process. cbn [fst snd frame_count].
  destruct (find_video_stream_spec p ctx 0) as [Hno Hyes].
  split; [| split; [| reflexivity]].
  - destruct (existsb is_video ctx) eqn:Hv.
    + destruct (Hyes eq_refl) as [j Hj]. rewrite Hj. split; discriminate.
    + split; [reflexivity | intros _; exact (Hno eq_refl)].
  - intro Hv. destruct (Hyes Hv) as [j Hj]. eauto.
Qed.

Lemma init_process_missing_video_witness :
  exists sds, snd (init_process default_event (Samples.params_with None None None None)
                    Samples.ctx0 0%nat) = ROk sds.
Proof.
  exact (proj1 (proj2 (init_process_missing_video default_event
    (Samples.params_with None None None None) Samples.ctx0 0%nat)) eq_refl).
Defined.

(** C10: a kept frame whose OCR succeeds yields a [RecognisedText] whose
    [pts] is the frame's signed 64-bit timestamp reinterpreted as [u64],
    i.e. taken modulo 2^64; a negative timestamp gives [pts + 2^64], at
    least 2^63, and no error. *)
Theorem recognised_text_pts_u64 : forall g o m ev f call txt,
  sample (ev_sample_rate ev) (frame_count ev) = Some Keep ->
  frame_buffer m (g (f_format f)) f (ev_language ev) = Some call ->
  o call = Some txt ->
  snd (process_frame g o m ev f) =
    ROk (PR_json {| pts := f_pts f mod u64_modulus; text := txt |}) /\
  (- 2 ^ 63 <= f_pts f < 0 ->
   f_pts f mod u64_modulus = f_pts f + u64_modulus /\ 2 ^ 63 <= f_pts f mod u64_modulus).
Proof.
  intros g o m ev f call txt Hs Hb Ho. split.
  - unfold process_frame. rewrite Hs, Hb, Ho. reflexivity.
  - intros Hp. unfold u64_modulus.
    assert (E : f_pts f mod 2 ^ 64 = f_pts f + 2 ^ 64).
    { rewrite <- (Z.mod_small (f_pts f + 2 ^ 64) (2 ^ 64)) by lia.
      rewrite <- Z.add_mod_idemp_r by lia. rewrite Z.mod_same by lia.
      now rewrite Z.add_0_r. }
    rewrite E. lia.
Qed.

Lemma recognised_text_pts_u64_witness :
  snd (process_frame Samples.desc0 Samples.ocr0 Release
         (fst (init_process default_event (Samples.params_with None None None None)
                 Samples.ctx0 0%nat))
         (Samples.frame0 Samples.AV_NOPTS_VALUE))
  = ROk (PR_json {| pts := 9223372036854775808; text := "TEXT" |}).
Proof.
  destruct (recognised_text_pts_u64 Samples.desc0 Samples.ocr0 Release
    (fst (init_process default_event (Samples.params_with None None None None)
            Samples.ctx0 0%nat))
    (Samples.frame0 Samples.AV_NOPTS_VALUE) _ "TEXT"%string eq_refl eq_refl eq_refl)
    as [H _].
  rewrite H. reflexivity.
Defined.

End StreamedProofs.

Module BatchProofs.
Import Batch.

Lemma usize_inc_ok : forall m c, c + 1 < u64_modulus -> usize_inc m c = Some (c + 1).
Proof. intros m c H. unfold usize_inc. now rewrite (proj2 (Z.ltb_lt _ _) H). Qed.

Lemma i32_mul_ok : forall m a b, 0 <= a -> 0 <= b -> a * b <= i32_max ->
  i32_mul m a b = Some (a * b).
Proof.
  intros m a b Ha Hb Hab. unfold i32_mul.
  rewrite (proj2 (Z.leb_le i32_min (a * b))) by (unfold i32_min; nia).
  now rewrite (proj2 (Z.leb_le _ i32_max) Hab).
Qed.

Lemma frames_loop_app : forall ocr m sr c lang st xs ys,
  frames_loop ocr m sr c lang st (xs ++ ys) =
  match frames_loop ocr m sr c lang st xs with
  | None => None
  | Some st' => frames_loop ocr m sr c lang st' ys
  end.
Proof.
  intros ocr m sr c lang st xs. revert st.
  induction xs as [|x xs IH]; intros st ys; cbn [app frames_loop]; [reflexivity |].
  destruct (frame_step ocr m sr c lang st x); [apply IH | reflexivity].
Qed.

Lemma packet_loop_collected : forall ocr m sr c lang pkts st,
  decodes_ok pkts ->
  packet_loop ocr m sr c lang st pkts =
  match frames_loop ocr m sr c lang st (collected_frames pkts) with
  | None => RPanic
  | Some st' => ROk st'
  end.
Proof.
  intros ocr m sr c lang pkts. induction pkts as [|p rest IH]; intros st Hd;
    cbn [packet_loop collected_frames]; [reflexivity |].
  assert (Hr : decodes_ok rest) by (intros q Hq; apply Hd; right; exact Hq).
  destruct (stream_index p =? 0) eqn:Hs; cbn [negb]; [| now apply IH].
  rewrite (Hd p (or_introl eq_refl) (proj1 (Z.eqb_eq _ _) Hs)).
  destruct (filtered p) as [vfs|]; [| now apply IH].
  rewrite frames_loop_app.
  destruct (frames_loop ocr m sr c lang st vfs); [now apply IH | reflexivity].
Qed.

Lemma frames_loop_no_roi : forall ocr m sr lang fs fc acc,
  0 < sr -> 0 <= fc -> fc + Z.of_nat (List.length fs) < u64_modulus ->
  Forall frame_wf fs ->
  frames_loop ocr m sr None lang (fc, acc) fs =
  Some (fc + Z.of_nat (List.length fs), acc ++ kept_entries ocr lang sr fc fs).
Proof.
  intros ocr m sr lang fs. induction fs as [|vf fs IH]; intros fc acc Hsr Hfc Hlen Hwf.
  - cbn. now rewrite Z.add_0_r, app_nil_r.
  - inversion Hwf as [|? ? Hvf Hrest]; subst.
    destruct Hvf as [Hw [Hh [Hl Hlh]]].
    cbn [List.length] in Hlen.
    cbn [frames_loop kept_entries].
    unfold frame_step, urem.
    rewrite (proj2 (Z.eqb_neq sr 0)) by lia.
    rewrite usize_inc_ok by lia.
    destruct (fc mod sr =? 0); cbn [negb option_map app].
    + rewrite i32_mul_ok by lia. cbn [option_map].
      rewrite IH by (try lia; assumption).
      cbn [Datatypes.length]. f_equal. f_equal; [lia |].
      rewrite <- app_assoc. cbn [app]. f_equal. f_equal.
      unfold full_frame_entry, as_u64, as_u32, u64_modulus, u32_modulus, i32_max in *.
      rewrite (Z.mod_small (vf_linesize vf * vf_height vf)) by nia.
      rewrite (Z.mod_small (vf_height vf)) by lia.
      rewrite (Z.mod_small (vf_width vf)) by lia.
      reflexivity.
    + rewrite IH by (try lia; assumption). cbn [Datatypes.length]. f_equal. f_equal. lia.
Qed.

(** C7: in batch mode, with [sample_rate = 2] and no region, an input
    whose stream-0 packets decode and yield ten frames gives a report of
    exactly five entries, for frames 0, 2, 4, 6, 8 in this order, each with
    the full-frame rectangle: the tuple [(top, height, left, width)] equals
    [(0, frame_height, 0, frame_width)]. *)
Theorem batch_report_sample_rate_2 : forall ocr m lang pkts d,
  decodes_ok pkts ->
  List.length (collected_frames pkts) = 10%nat ->
  Forall frame_wf (collected_frames pkts) ->
  exists report,
    apply_ocr_report ocr m (process_sample_rate (Some 2)) None lang pkts = ROk report /\
    report = map (fun i => full_frame_entry ocr lang (Z.of_nat i)
                              (nth i (collected_frames pkts) d)) [0; 2; 4; 6; 8]%nat /\
    List.length report = 5%nat /\
    map frame report = [0; 2; 4; 6; 8] /\
    (forall e, In e report ->
       exists vf, In vf (collected_frames pkts) /\
                  coordinates e = (0, vf_height vf, 0, vf_width vf)).
Proof.
  intros ocr m lang pkts d Hd Hlen Hwf.
  assert (Hsr : process_sample_rate (Some 2) = 2) by reflexivity.
  unfold apply_ocr_report. rewrite Hsr, packet_loop_collected by exact Hd.
  rewrite frames_loop_no_roi; try lia; try assumption;
    [| rewrite Hlen; unfold u64_modulus; lia].
  eexists. split; [reflexivity |].
  remember (collected_frames pkts) as fs eqn:Hfs. clear Hfs Hwf.
  do 10 (destruct fs as [|? fs]; [discriminate Hlen |]).
  destruct fs; [| discriminate Hlen].
  cbn [app kept_entries]. cbn [Z.add Z.modulo Z.eqb].
  split; [reflexivity |]. split; [reflexivity |]. split; [reflexivity |].
  intros e He. cbn [In] in He.
  repeat destruct He as [He|He]; try contradiction; subst e;
    (eexists; split; [| reflexivity]; cbn [In]; tauto).
Qed.

Lemma batch_report_sample_rate_2_witness :
  exists report,
    apply_ocr_report Samples.ocr_text Debug (process_sample_rate (Some 2)) None "eng"
      Samples.pkts0 = ROk report /\ map frame report = [0; 2; 4; 6; 8].
Proof.
  assert (Hd : decodes_ok Samples.pkts0).
  { intros q Hq Hs. simpl in Hq.
    repeat destruct Hq as [<-|Hq]; simpl in *; try reflexivity; try discriminate; contradiction. }
  assert (Hw : Forall frame_wf (collected_frames Samples.pkts0)).
  { simpl. repeat constructor; unfold frame_wf, i32_max; simpl; lia. }
  destruct (batch_report_sample_rate_2 Samples.ocr_text Debug "eng" Samples.pkts0
              Samples.vf0 Hd eq_refl Hw) as [report [H1 [_ [_ [H4 _]]]]].
  exists report. split; assumption.
Defined.

End BatchProofs.

Module SamplingProofs.






(** C3 (counterexample): a job with [sample_rate = 0] is not rejected by
    [init_process], and the first frame then panics on the modulo by
    zero. *)
Lemma sample_rate_zero_not_rejected :
  (exists sds, snd (Streamed.init_process Streamed.default_event
                      (Samples.params_with None (Some 0) None None) Samples.ctx0 0%nat)
               = ROk sds) /\
  snd (Streamed.process_frame Samples.desc0 Samples.ocr0 Release
         (fst (Streamed.init_process Streamed.default_event
                 (Samples.params_with None (Some 0) None None) Samples.ctx0 0%nat))
         (Samples.frame0 0)) = RPanic.
Proof. split; [eexists; reflexivity | reflexivity]. Qed.

(** C3 (amended): an unspecified sample rate keeps every frame (the
    streamed worker skips no frame, the batch worker uses 1); the sample
    rate is stored as given, without validation, so a sample rate of 0
    makes every frame's modulo panic (streamed and batch alike); in batch
    mode a negative [i64] sample rate is cast to [usize] as [v + 2^64]. *)
Theorem sample_rate_default_and_zero :
  (forall ev p ctx sender,
     Streamed.ev_sample_rate (fst (Streamed.init_process ev p ctx sender)) =
     Streamed.sample_rate p) /\
  (forall g o m ev f, Streamed.ev_sample_rate ev = None ->
     snd (Streamed.process_frame g o m ev f) <> ROk Streamed.PR_empty) /\
  (forall g o m ev f, Streamed.ev_sample_rate ev = Some 0 ->
     snd (Streamed.process_frame g o m ev f) = RPanic) /\
  Batch.process_sample_rate None = 1 /\
  (forall fc, urem fc (Batch.process_sample_rate None) = Some 0) /\
  (forall ocr m c lang fc acc vf,
     Batch.frame_step ocr m (Batch.process_sample_rate (Some 0)) c lang (fc, acc) vf = None) /\
  (forall v, - 2 ^ 63 <= v < 0 -> Batch.process_sample_rate (Some v) = v + u64_modulus).
Proof.
  split; [reflexivity |].
  split.
  { intros g o m ev f Hn H.
    apply StreamedProofs.process_frame_empty in H. rewrite Hn in H. discriminate H. }
  split.
  { intros g o m ev f H0. unfold Streamed.process_frame. rewrite H0. reflexivity. }
  split; [reflexivity |].
  split.
  { intro fc. unfold urem. cbn. now rewrite Z.mod_1_r. }
  split; [reflexivity |].
  intros v Hv. unfold Batch.process_sample_rate, as_u64, u64_modulus.
  rewrite <- (Z.mod_small (v + 2 ^ 64) (2 ^ 64)) by lia.
  rewrite <- Z.add_mod_idemp_r by lia. rewrite Z.mod_same by lia.
  now rewrite Z.add_0_r.
Qed.

Lemma sample_rate_default_and_zero_witness :
  snd (Streamed.process_frame Samples.desc0 Samples.ocr0 Release
         (fst (Streamed.init_process Streamed.default_event
                 (Samples.params_with None (Some 0) None None) Samples.ctx0 0%nat))
         (Samples.frame0 0)) = RPanic /\
  Batch.process_sample_rate (Some (-1)) = 18446744073709551615.
Proof.
  destruct sample_rate_default_and_zero as [_ [_ [Hz [_ [_ [_ Hneg]]]]]].
  split.
  - apply Hz. reflexivity.
  - rewrite (Hneg (-1)) by lia. reflexivity.
Defined.

End SamplingProofs.

(** * Further properties of the code *)

Module RegionExtra.
Import Region.

Lemma u32_sub_add_l : forall m a b, 0 <= b -> u32_sub m (a + b) a = Some b.
Proof.
  intros m a b Hb. unfold u32_sub.
  rewrite (proj2 (Z.leb_le a (a + b))) by lia. f_equal. lia.
Qed.

Lemma u32_sub_add_r : forall m a b, 0 <= a -> u32_sub m (a + b) b = Some a.
Proof.
  intros m a b Ha. unfold u32_sub.
  rewrite (proj2 (Z.leb_le b (a + b))) by lia. f_equal. lia.
Qed.

(** Describing a rectangle with non-negative fields by any of the seven
    accepted field sets and resolving it gives the rectangle back; any
    other field set is refused with the error printing its fields. *)
Theorem describe_roundtrip : forall m c mask,
  coords_nonneg c ->
  (In mask accepted_masks -> get_coordinates m (describe c mask) = ROk c) /\
  (~ In mask accepted_masks ->
   get_coordinates m (describe c mask) = RErr (coordinates_error (describe c mask))).
Proof.
  intros m [t l w h] [[[[[mt ml] mr] mb] mw] mh] Hc.
  unfold coords_nonneg in Hc; cbn [c_top c_left c_width c_height] in Hc.
  destruct mt, ml, mr, mb, mw, mh;
    cbn [describe get_coordinates top left right bottom width height c_top c_left
         c_width c_height];
    split; intro Hin;
    try (exfalso; apply Hin; cbn [In accepted_masks]; tauto);
    try reflexivity;
    try (cbn [In accepted_masks] in Hin;
         repeat destruct Hin as [Hin|Hin]; try discriminate Hin; contradiction);
    rewrite ?u32_sub_add_l, ?u32_sub_add_r by lia; reflexivity.
Qed.

Lemma describe_roundtrip_witness :
  get_coordinates Release
    (describe {| c_top := 5; c_left := 7; c_width := 30; c_height := 40 |}
              (false, false, true, true, true, true))
  = ROk {| c_top := 5; c_left := 7; c_width := 30; c_height := 40 |}.
Proof.
  apply (proj1 (describe_roundtrip Release
    {| c_top := 5; c_left := 7; c_width := 30; c_height := 40 |}
    (false, false, true, true, true, true)
    ltac:(unfold coords_nonneg; simpl; lia))).
  simpl. tauto.
Defined.

(** In a build with overflow checks, a rectangle returned by
    [get_coordinates] agrees with every field of the region: [top],
    [left], [width], [height] are copied, [left + width = right] and
    [top + height = bottom]. *)
Theorem get_coordinates_consistent_debug : forall r c,
  get_coordinates Debug r = ROk c ->
  (forall x, top r = Some x -> c_top c = x) /\
  (forall x, left r = Some x -> c_left c = x) /\
  (forall x, right r = Some x -> c_left c + c_width c = x) /\
  (forall x, bottom r = Some x -> c_top c + c_height c = x) /\
  (forall x, width r = Some x -> c_width c = x) /\
  (forall x, height r = Some x -> c_height c = x).
Proof.
  intros [[t|] [l|] [rt|] [b|] [w|] [h|]] c H;
    cbn [get_coordinates top left right bottom width height] in H;
    try discriminate H;
    unfold u32_sub in H;
    repeat match type of H with
           | context [?a <=? ?b] => destruct (Z.leb_spec a b)
           end;
    cbn [mk_coords] in H; try discriminate H;
    injection H as <-;
    cbn [top left right bottom width height c_top c_left c_width c_height];
    repeat split; intros x Hx; inversion Hx; subst; lia.
Qed.

Lemma get_coordinates_consistent_debug_witness :
  c_left {| c_top := 0; c_left := 10; c_width := 190; c_height := 100 |} +
  c_width {| c_top := 0; c_left := 10; c_width := 190; c_height := 100 |} = 200.
Proof.
  destruct (get_coordinates_consistent_debug
    {| top := Some 0; left := Some 10; right := Some 200;
       bottom := Some 100; width := None; height := None |}
    {| c_top := 0; c_left := 10; c_width := 190; c_height := 100 |} eq_refl)
    as [_ [_ [Hr _]]].
  apply Hr. reflexivity.
Defined.

End RegionExtra.

Module StreamedExtra.
Import Streamed.

Lemma find_video_stream_first : forall p ctx i k,
  nth_error ctx i = Some AVMEDIA_TYPE_VIDEO ->
  (forall j t, (j < i)%nat -> nth_error ctx j = Some t -> is_video t = false) ->
  find_video_stream p k ctx =
    ROk [ {| sd_index := k + Z.of_nat i; sd_filters := video_filters p |} ].
Proof.
  intros p ctx. induction ctx as [|t rest IH]; intros i k Hi Hbefore.
  - destruct i; discriminate Hi.
  - cbn [find_video_stream]. destruct i as [|i].
    + cbn in Hi. injection Hi as ->. cbn. now rewrite Z.add_0_r.
    + rewrite (Hbefore 0%nat t) by (reflexivity || lia).
      rewrite (IH i (k + 1)).
      * replace (k + 1 + Z.of_nat i) with (k + Z.of_nat (S i)) by lia. reflexivity.
      * exact Hi.
      * intros j t' Hj Ht'. apply (Hbefore (S j) t'); [lia | exact Ht'].
Qed.

(** [init_process] describes the first video stream of the source: its
    index is the position of the first stream of video type, whatever
    streams precede it; it also keeps the job's language, or "eng" when
    none is given, the response sender and the sample rate. *)
Theorem init_process_first_video_stream : forall ev p ctx sender i,
  nth_error ctx i = Some AVMEDIA_TYPE_VIDEO ->
  (forall j t, (j < i)%nat -> nth_error ctx j = Some t -> is_video t = false) ->
  snd (init_process ev p ctx sender) =
    ROk [ {| sd_index := Z.of_nat i; sd_filters := video_filters p |} ] /\
  ev_language (fst (init_process ev p ctx sender)) =
    match language p with Some l => l | None => "eng"%string end /\
  response_sender (fst (init_process ev p ctx sender)) = Some sender /\
  ev_sample_rate (fst (init_process ev p ctx sender)) = sample_rate p.
Proof.
  intros ev p ctx sender i Hi Hb. unfold init_process. cbn [fst snd].
  rewrite (find_video_stream_first p ctx i 0 Hi Hb).
  repeat split.
Qed.

Lemma init_process_first_video_stream_witness :
  snd (init_process default_event (Samples.params_with None None None None)
         Samples.ctx0 0%nat) =
    ROk [ {| sd_index := 1;
             sd_filters := video_filters (Samples.params_with None None None None) |} ].
Proof.
  apply (init_process_first_video_stream default_event
           (Samples.params_with None None None None) Samples.ctx0 0%nat 1%nat).
  - reflexivity.
  - intros j t Hj Ht. destruct j as [|j]; [| lia]. cbn in Ht. injection Ht as <-.
    reflexivity.
Defined.

(** A frame with a negative row stride (FFmpeg's bottom-up layout) gets a
    buffer length of [linesize * height + 2^64]: the negative [c_int]
    product cast to [usize]. *)
Theorem frame_buffer_negative_linesize : forall m desc f lang,
  f_linesize f < 0 -> 0 < f_height f -> i32_min <= f_linesize f * f_height f ->
  option_map oc_len (frame_buffer m desc f lang) =
    Some (f_linesize f * f_height f + u64_modulus).
Proof.
  intros m desc f lang Hl Hh Hmin. unfold frame_buffer, i32_mul.
  rewrite (proj2 (Z.leb_le _ _) Hmin).
  rewrite (proj2 (Z.leb_le (f_linesize f * f_height f) i32_max))
    by (unfold i32_max; nia).
  cbn [andb option_map oc_len]. unfold as_u64, u64_modulus, i32_min in *.
  f_equal.
  rewrite <- (Z.mod_small (f_linesize f * f_height f + 2 ^ 64) (2 ^ 64)) by nia.
  rewrite <- Z.add_mod_idemp_r by lia. rewrite Z.mod_same by lia.
  now rewrite Z.add_0_r.
Qed.

Lemma frame_buffer_negative_linesize_witness :
  option_map oc_len (frame_buffer Release rgb24_desc
    {| f_format := 2; f_width := 64; f_height := 100; f_linesize := -192; f_pts := 0 |}
    "eng") = Some 18446744073709532416.
Proof.
  rewrite frame_buffer_negative_linesize; cbn [f_linesize f_height];
    unfold i32_min; try lia. reflexivity.
Defined.

Lemma run_sampler_period : forall sr n k (M : nat),
  Z.of_nat M = u32_modulus ->
  (k + M < n)%nat ->
  nth_error (fst (run_sampler n sr 0)) (k + M) =
  nth_error (fst (run_sampler n sr 0)) k /\
  nth_error (fst (run_sampler n sr 0)) M = Some (sample sr 0).
Proof.
  intros sr n k M HM Hn.
  rewrite StreamedProofs.run_sampler_from_zero. cbn [fst].
  rewrite !nth_error_map, !nth_error_seq.
  rewrite (proj2 (Nat.ltb_lt (k + M) n)) by lia.
  rewrite (proj2 (Nat.ltb_lt k n)) by lia.
  rewrite (proj2 (Nat.ltb_lt M n)) by lia.
  cbn [option_map Nat.add].
  rewrite Nat2Z.inj_add, HM.
  assert (Hpos : u32_modulus <> 0) by (unfold u32_modulus; lia).
  rewrite <- Z.add_mod_idemp_r, Z.mod_same, Z.add_0_r by exact Hpos.
  split; reflexivity.
Qed.

(** The streamed frame counter is a wrapping [u32]: the decisions repeat
    with period 2^32 calls, so with sample rate 3 the call numbered 2^32
    is kept although 2^32 is not a multiple of 3. *)
Theorem sampler_counter_wraps : forall sr n k,
  (k + Z.to_nat u32_modulus < n)%nat ->
  nth_error (fst (run_sampler n sr 0)) (k + Z.to_nat u32_modulus) =
  nth_error (fst (run_sampler n sr 0)) k /\
  (sr = Some 3 ->
   nth_error (fst (run_sampler n sr 0)) (Z.to_nat u32_modulus) = Some (Some Keep)).
Proof.
  intros sr n k Hn.
  assert (HM : Z.of_nat (Z.to_nat u32_modulus) = u32_modulus)
    by (apply Z2Nat.id; unfold u32_modulus; lia).
  destruct (run_sampler_period sr n k (Z.to_nat u32_modulus) HM Hn) as [H1 H2].
  split; [exact H1 |].
  intros ->. rewrite H2. reflexivity.
Qed.

Lemma sampler_counter_wraps_witness :
  nth_error (fst (run_sampler (S (Z.to_nat u32_modulus)) (Some 3) 0))
            (Z.to_nat u32_modulus) = Some (Some Keep).
Proof.
  apply (proj2 (sampler_counter_wraps (Some 3) (S (Z.to_nat u32_modulus)) 0%nat
                  (Nat.lt_succ_diag_r (Z.to_nat u32_modulus)))).
  reflexivity.
Defined.

End StreamedExtra.

Module BatchExtra.
Import Batch.

Lemma packet_loop_app : forall ocr m sr c lang st xs ys,
  packet_loop ocr m sr c lang st (xs ++ ys) =
  match packet_loop ocr m sr c lang st xs with
  | ROk st' => packet_loop ocr m sr c lang st' ys
  | RErr e => RErr e
  | RPanic => RPanic
  end.
Proof.
  intros ocr m sr c lang st xs. revert st.
  induction xs as [|x xs IH]; intros st ys; cbn [app packet_loop]; [reflexivity |].
  destruct (negb (stream_index x =? 0)); [apply IH |].
  destruct (decode_error x); [reflexivity |].
  destruct (filtered x); [| apply IH].
  destruct (frames_loop ocr m sr c lang st l); [apply IH | reflexivity].
Qed.

Lemma packet_loop_collected_ok : forall ocr m sr c lang pkts st,
  decodes_ok pkts ->
  packet_loop ocr m sr c lang st pkts =
  match frames_loop ocr m sr c lang st (collected_frames pkts) with
  | None => RPanic
  | Some st' => ROk st'
  end.
Proof.
  intros ocr m sr c lang pkts. induction pkts as [|p rest IH]; intros st Hd;
    cbn [packet_loop collected_frames]; [reflexivity |].
  assert (Hr : decodes_ok rest) by (intros q Hq; apply Hd; right; exact Hq).
  destruct (stream_index p =? 0) eqn:Hs; cbn [negb]; [| now apply IH].
  rewrite (Hd p (or_introl eq_refl) (proj1 (Z.eqb_eq _ _) Hs)).
  destruct (filtered p) as [vfs|]; [| now apply IH].
  rewrite BatchProofs.frames_loop_app.
  destruct (frames_loop ocr m sr c lang st vfs); [now apply IH | reflexivity].
Qed.

(** When every packet of stream 0 decodes, the report [apply_ocr] builds
    is the frame loop run from frame number 0 over the frames the filter
    graph returns for the packets of stream 0, in order: packets of other
    streams, and packets for which the graph returns an error, add no
    entry and do not advance the frame counter. *)
Theorem apply_ocr_report_collected : forall ocr m sr c lang pkts,
  decodes_ok pkts ->
  apply_ocr_report ocr m sr c lang pkts =
  match frames_loop ocr m sr c lang (0, []) (collected_frames pkts) with
  | None => RPanic
  | Some (_, text_analysis) => ROk text_analysis
  end.
Proof.
  intros ocr m sr c lang pkts Hd. unfold apply_ocr_report.
  rewrite packet_loop_collected_ok by exact Hd.
  now destruct (frames_loop ocr m sr c lang (0, []) (collected_frames pkts))
    as [[fc l]|].
Qed.

Lemma apply_ocr_report_collected_witness :
  apply_ocr_report Samples.ocr_text Debug 1 None "eng"
    [{| stream_index := 1; decode_error := Some "audio"%string; filtered := None |}]
  = ROk [].
Proof.
  rewrite (apply_ocr_report_collected Samples.ocr_text Debug 1 None "eng").
  - reflexivity.
  - intros q Hq Hs. destruct Hq as [<-|[]]. discriminate Hs.
Defined.

(** A decoding error on a packet of stream 0 ends [apply_ocr] with that
    error, whatever follows it, once the packets before it have been
    processed without a panic: the frames already analysed are dropped
    with the report. *)
Theorem apply_ocr_report_decode_error : forall ocr m sr c lang pre p post e st,
  decodes_ok pre ->
  frames_loop ocr m sr c lang (0, []) (collected_frames pre) = Some st ->
  stream_index p = 0 -> decode_error p = Some e ->
  apply_ocr_report ocr m sr c lang (pre ++ p :: post) = RErr e.
Proof.
  intros ocr m sr c lang pre p post e st Hd Hpre Hs He.
  unfold apply_ocr_report. rewrite packet_loop_app.
  rewrite packet_loop_collected_ok, Hpre by exact Hd.
  cbn [packet_loop]. rewrite Hs, He. reflexivity.
Qed.

Lemma apply_ocr_report_decode_error_witness :
  apply_ocr_report Samples.ocr_text Debug 1 None "eng"
    ([Samples.video_packet (Some [Samples.vf0; Samples.vf0])] ++
     [{| stream_index := 0; decode_error := Some "Invalid data"%string; filtered := None |};
      Samples.video_packet (Some [Samples.vf0])])
  = RErr "Invalid data"%string.
Proof.
  eapply (apply_ocr_report_decode_error _ _ _ _ _ _ _ _ _ _).
  - intros q Hq Hs. destruct Hq as [<-|[]]. reflexivity.
  - reflexivity.
  - reflexivity.
  - reflexivity.
Defined.

(** A region given to [apply_ocr] changes nothing but the coordinates
    written in each entry: the same frames are kept, with the same frame
    numbers and texts, and the loop panics on the same frames, as without
    a region; every entry then carries the given tuple. *)
Theorem frames_loop_given_coordinates : forall ocr m sr lang c fs fc acc,
  frames_loop ocr m sr (Some c) lang (fc, map (set_coordinates c) acc) fs =
  option_map (fun st => (fst st, map (set_coordinates c) (snd st)))
    (frames_loop ocr m sr None lang (fc, acc) fs).
Proof.
  intros ocr m sr lang c fs. induction fs as [|vf fs IH]; intros fc acc;
    cbn [frames_loop]; [reflexivity |].
  unfold frame_step.
  destruct (urem fc sr) as [r|]; [| reflexivity].
  destruct (negb (r =? 0)).
  - destruct (usize_inc m fc) as [fc'|]; cbn [option_map]; [apply IH | reflexivity].
  - destruct (i32_mul m (vf_linesize vf) (vf_height vf)) as [b|]; [| reflexivity].
    destruct (usize_inc m fc) as [fc'|]; cbn [option_map]; [| reflexivity].
    rewrite <- IH. f_equal. f_equal. rewrite map_app. reflexivity.
Qed.

End BatchExtra.

